(** * The AWX list-view search bar (components/Search/Search.jsx)

    A shallow embedding of the [Search] React component: its props with
    their declared defaults, its state object, the four event handlers and
    the part of [render] that decides what the key selector shows. *)

From stdpp Require Import gmap strings list fin_maps.

Local Open Scope string_scope.
Local Open Scope list_scope.

(** ** Values and props *)

(** The JavaScript values that the state object of the component can hold. *)
Inductive Val :=
  | VUndefined
  | VBool (b : bool)
  | VStr (s : string).

Global Instance Val_eq_dec : EqDecision Val.
Proof. solve_decision. Defined.

(** String conversion, as a template literal applies it to its holes. *)
Definition toString (v : Val) : string :=
  match v with
  | VUndefined => "undefined"
  | VBool true => "true"
  | VBool false => "false"
  | VStr s => s
  end.

(** Strict equality [===] on the values above. *)
Definition strictEq (a b : Val) : bool := bool_decide (a = b).

(** One entry of the [columns] prop. A column object without an
    [isSearchable] property reads as a falsy flag. *)
Record Column := {
  key : string;
  name : string;
  isSearchable : bool;
}.

(** The parent's callback is opaque: all the component can observe of a
    call is whether it returns or throws. *)
Inductive Completion := Returns | Throws.

Definition Callback : Type := string → Val → Completion.

(** [this.props] after React has filled in [defaultProps]; [None] for
    [onSearch] is JavaScript's [null]. *)
Record Props := {
  columns : list Column;
  onSearch : option Callback;
  sortedColumnKey : string;
}.

(** What the parent element passes; [None] is an attribute left out. A
    parent that passes a [sortedColumnKey] which is not a string is not
    covered. *)
Record Attrs := {
  attr_columns : list Column;
  attr_onSearch : option Callback;
  attr_sortedColumnKey : option string;
}.

(** [Search.propTypes] *)
Inductive PropType := PTArrayOfObject | PTFunc | PTString.

Record PropDecl := {
  propType : PropType;
  isRequired : bool;
}.

Definition propTypes : gmap string PropDecl :=
  {[ "columns" := {| propType := PTArrayOfObject; isRequired := true |};
     "onSearch" := {| propType := PTFunc; isRequired := false |};
     "sortedColumnKey" := {| propType := PTString; isRequired := false |} ]}.

(** [Search.defaultProps] *)
Definition default_onSearch : option Callback := None.
Definition default_sortedColumnKey : string := "name".

Definition withDefaults (a : Attrs) : Props :=
  {| columns := attr_columns a;
     onSearch := match attr_onSearch a with
                 | Some f => Some f
                 | None => default_onSearch
                 end;
     sortedColumnKey := default default_sortedColumnKey (attr_sortedColumnKey a) |}.

(** ** The component instance and its handler monad *)

(** What a handler does to the outside world. *)
Inductive Effect :=
  | PreventDefault
  | OnSearchCall (fieldKey : string) (fieldValue : Val).

Inductive Exn :=
  | TypeError
  | CallbackThrew.

(** [this.state] together with the log of effects performed so far. *)
Record Component := {
  state : gmap string Val;
  effects : list Effect;
}.

(** A handler either completes or throws; the component survives both. *)
Definition M (A : Type) : Type := Component → (Exn + A) * Component.

Global Instance M_ret : MRet M := λ A x c, (inr x, c).

Global Instance M_bind : MBind M := λ A B f m c,
  match m c with
  | (inr x, c') => f x c'
  | (inl e, c') => (inl e, c')
  end.

Definition throw {A} (e : Exn) : M A := λ c, (inl e, c).

Definition perform (e : Effect) : M unit := λ c,
  (inr (), {| state := state c; effects := effects c ++ [e] |}).

(** Reading a property of [this.state]; a missing one is [undefined]. *)
Definition getState (field : string) : M Val := λ c,
  (inr (default VUndefined (state c !! field)), c).

(** [this.setState(partial)]: a shallow merge in which [partial] wins. No
    handler reads the state after it has called [setState], so the merge is
    applied at once. *)
Definition setState (partial : gmap string Val) : M unit := λ c,
  (inr (), {| state := partial ∪ state c; effects := effects c |}).

(** Calling the [onSearch] prop: [null] is not callable. *)
Definition callOnSearch (p : Props) (fieldKey : string) (fieldValue : Val) : M unit :=
  match onSearch p with
  | None => throw TypeError
  | Some f =>
      perform (OnSearchCall fieldKey fieldValue) ;;
      match f fieldKey fieldValue with
      | Returns => mret ()
      | Throws => throw CallbackThrew
      end
  end.

(** ** Constructor and handlers *)

Definition constructor (p : Props) : Component :=
  {| state := {[ "isSearchDropdownOpen" := VBool false;
                 "searchKey" := VStr (sortedColumnKey p);
                 "searchValue" := VStr "" ]};
     effects := [] |}.

Definition handleDropdownToggle (isSearchDropdownOpen : Val) : M unit :=
  setState {[ "isSearchDropdownOpen" := isSearchDropdownOpen ]}.

(** Destructuring the result of [columns.find] throws when nothing was
    found. *)
Definition handleDropdownSelect (p : Props) (innerText : string) : M unit :=
  match List.find (λ col, bool_decide (name col = innerText)) (columns p) with
  | None => throw TypeError
  | Some col =>
      setState {[ "isSearchDropdownOpen" := VBool false;
                  "searchKey" := VStr (key col) ]}
  end.

Definition handleSearch (p : Props) : M unit :=
  perform PreventDefault ;;
  searchKey ← getState "searchKey";
  searchValue ← getState "searchValue";
  callOnSearch p (toString searchKey +:+ "__icontains") searchValue ;;
  setState {[ "searchValue" := VStr "" ]}.

Definition handleSearchInputChange (searchValue : Val) : M unit :=
  setState {[ "searchValue" := searchValue ]}.

(** ** Rendering *)

(** [<DropdownItem key={key} component="button">{name}</DropdownItem>] *)
Record DropdownItem := {
  item_key : string;
  item_text : string;
}.

(** The first child of the input group: the styled [Dropdown] with its
    toggle text and items, or the static [NoOptionDropdown] label. *)
Inductive KeySelector :=
  | Dropdown (isOpen : Val) (toggleText : string) (dropdownItems : list DropdownItem)
  | NoOptionDropdown (text : string).

Record View := {
  keySelector : KeySelector;
  textInputValue : Val;
}.

Definition toDropdownItem (col : Column) : DropdownItem :=
  {| item_key := key col; item_text := name col |}.

Definition render (p : Props) (st : gmap string Val) : Exn + View :=
  let isSearchDropdownOpen := default VUndefined (st !! "isSearchDropdownOpen") in
  let searchKey := default VUndefined (st !! "searchKey") in
  let searchValue := default VUndefined (st !! "searchValue") in
  match List.find (λ col, strictEq (VStr (key col)) searchKey) (columns p) with
  | None => inl TypeError
  | Some col =>
      let searchColumnName := name col in
      let searchDropdownItems :=
        map toDropdownItem
          (List.filter
             (λ col, isSearchable col && negb (strictEq (VStr (key col)) searchKey))
             (columns p)) in
      inr {| keySelector :=
               if (0 <? length searchDropdownItems)%nat
               then Dropdown isSearchDropdownOpen searchColumnName searchDropdownItems
               else NoOptionDropdown searchColumnName;
             textInputValue := searchValue |}
  end.

(** ** Sequences of user operations *)

Inductive Op :=
  | Toggle (isOpen : Val)
  | Select (innerText : string)
  | InputChange (value : Val)
  | Submit.

Definition handle (p : Props) (op : Op) : M unit :=
  match op with
  | Toggle isOpen => handleDropdownToggle isOpen
  | Select innerText => handleDropdownSelect p innerText
  | InputChange value => handleSearchInputChange value
  | Submit => handleSearch p
  end.

(** The component after one operation, whether the handler completed or
    threw. *)
Definition step (p : Props) (c : Component) (op : Op) : Component :=
  (handle p op c).2.

Definition run (p : Props) (ops : list Op) : Component :=
  foldl (step p) (constructor p) ops.

(** The calls of [onSearch] recorded in an effect log, oldest first. *)
Definition onSearchCalls (log : list Effect) : list (string * Val) :=
  omap (λ e, match e with
             | OnSearchCall fieldKey fieldValue => Some (fieldKey, fieldValue)
             | PreventDefault => None
             end) log.

(** The names of the properties the state object is built with. *)
Definition stateFields : gset string :=
  {[ "isSearchDropdownOpen"; "searchKey"; "searchValue" ]}.

(** ** Specification vocabulary *)

(** [x] is the first element of [l] that satisfies [P]. *)
Definition FirstWith {A} (P : A → Prop) (l : list A) (x : A) : Prop :=
  ∃ i : nat, l !! i = Some x ∧ P x ∧ ∀ (j : nat) y, j < i → l !! j = Some y → ¬ P y.

(** [l'] keeps exactly the elements of [l] that satisfy [P], in their
    order in [l]. *)
Inductive Keeps {A} (P : A → Prop) : list A → list A → Prop :=
  | Keeps_nil : Keeps P [] []
  | Keeps_take x l l' : P x → Keeps P l l' → Keeps P (x :: l) (x :: l')
  | Keeps_drop x l l' : ¬ P x → Keeps P l l' → Keeps P (x :: l) l'.

(** The selected key is the key of one of the supplied columns. *)
Definition keyReferencesColumn (p : Props) (st : gmap string Val) : Prop :=
  ∃ col, col ∈ columns p ∧ st !! "searchKey" = Some (VStr (key col)).

(** ** Vocabulary for sequences of operations *)

Definition isSubmit (op : Op) : bool :=
  match op with
  | Submit => true
  | _ => false
  end.

Definition countSubmits (ops : list Op) : nat := length (List.filter isSubmit ops).

(** How often [preventDefault] was called according to an effect log. *)
Definition preventDefaults (log : list Effect) : nat :=
  length (List.filter (λ e, match e with
                            | PreventDefault => true
                            | OnSearchCall _ _ => false
                            end) log).

(** The toolkit passes a boolean to [onToggle] and a string to the text
    input's [onChange]. *)
Definition toolkitEvent (op : Op) : Prop :=
  match op with
  | Toggle (VBool _) => True
  | Toggle _ => False
  | InputChange (VStr _) => True
  | InputChange _ => False
  | Select _ | Submit => True
  end.

(** A key the component can have selected: a column's, or the one it was
    constructed with. *)
Definition knownKey (p : Props) (k : string) : Prop :=
  (∃ col, col ∈ columns p ∧ k = key col) ∨ k = sortedColumnKey p.

(** ** Sample props for closed instances *)

Definition listColumns : list Column :=
  [ {| key := "name"; name := "Name"; isSearchable := true |};
    {| key := "description"; name := "Description"; isSearchable := true |};
    {| key := "modified"; name := "Modified"; isSearchable := false |} ].

Definition accepting : Callback := λ _ _, Returns.

Definition listProps : Props :=
  withDefaults {| attr_columns := listColumns;
                  attr_onSearch := Some accepting;
                  attr_sortedColumnKey := None |}.

Definition typed (text : string) : Component :=
  step listProps (constructor listProps) (InputChange (VStr text)).

(** A parent whose callback throws. *)
Definition rejecting : Callback := λ _ _, Throws.

(** The same columns, with nothing else passed by the parent. *)
Definition bareAttrs : Attrs :=
  {| attr_columns := listColumns; attr_onSearch := None; attr_sortedColumnKey := None |}.

(** * Properties *)

Section list_facts.
Context {A : Type}.

Lemma find_FirstWith (f : A → bool) (P : A → Prop) (l : list A) :
  (∀ x, f x = true ↔ P x) →
  (∃ x, x ∈ l ∧ P x) →
  ∃ x, List.find f l = Some x ∧ FirstWith P l x.
Proof.
  intros Hf. induction l as [|a l IH]; intros (x & Hin & Hx).
  - by apply elem_of_nil in Hin.
  - simpl. destruct (f a) eqn:Ha.
    + exists a. split; [done|]. exists 0. split_and!; [done|by apply Hf|].
      intros j y Hj. lia.
    + assert (¬ P a) as Hna by (rewrite <- Hf; congruence).
      apply elem_of_cons in Hin as [->|Hin]; [done|].
      destruct IH as (z & Hz & i & Hi & HPz & Hbefore); [by eauto|].
      exists z. split; [done|]. exists (S i). split_and!; [done..|].
      intros [|j] y Hj Hy; simpl in Hy.
      * by simplify_eq.
      * apply (Hbefore j); [lia|done].
Qed.

Lemma filter_Keeps (f : A → bool) (P : A → Prop) (l : list A) :
  (∀ x, f x = true ↔ P x) → Keeps P l (List.filter f l).
Proof.
  intros Hf. induction l as [|a l IH]; simpl; [constructor|].
  destruct (f a) eqn:Ha.
  - constructor; [by apply Hf|done].
  - constructor; [|done]. rewrite <- Hf. congruence.
Qed.
End list_facts.

Section handler_facts.
Implicit Types (p : Props) (c : Component) (st : gmap string Val).

Lemma lookup_merge_single (f g : string) (v : Val) st :
  ({[ f := v ]} ∪ st) !! g = if decide (f = g) then Some v else st !! g.
Proof.
  rewrite lookup_union. destruct (decide (f = g)) as [->|Hne].
  - rewrite lookup_singleton_eq. by destruct (st !! g).
  - rewrite lookup_singleton_ne by done. by destruct (st !! g).
Qed.

Lemma delete_merge_single (f : string) (v : Val) st :
  delete f ({[ f := v ]} ∪ st) = delete f st.
Proof.
  apply map_eq. intros g. destruct (decide (f = g)) as [->|Hne].
  - by rewrite !lookup_delete_eq.
  - rewrite !lookup_delete_ne, lookup_merge_single by done. by case_decide.
Qed.

Lemma lookup_merge_pair (f1 f2 g : string) (v1 v2 : Val) st :
  ({[ f1 := v1; f2 := v2 ]} ∪ st) !! g
  = if decide (f1 = g) then Some v1
    else if decide (f2 = g) then Some v2 else st !! g.
Proof.
  by rewrite insert_union_singleton_l, <- (assoc_L (∪)), !lookup_merge_single.
Qed.

Lemma dom_merge_within (partial : gmap string Val) st :
  dom partial ⊆ dom st → dom (partial ∪ st) = dom st.
Proof. intros Hsub. rewrite dom_union_L. by apply subseteq_union_1_L. Qed.

(** [handleSearch] run symbolically: the three ways it can end. *)
Lemma handleSearch_unfold p c :
  let fieldKey := toString (default VUndefined (state c !! "searchKey")) +:+ "__icontains" in
  let fieldValue := default VUndefined (state c !! "searchValue") in
  let prevented := effects c ++ [PreventDefault] in
  let called := prevented ++ [OnSearchCall fieldKey fieldValue] in
  handleSearch p c =
    match onSearch p with
    | None => (inl TypeError, {| state := state c; effects := prevented |})
    | Some f =>
        match f fieldKey fieldValue with
        | Returns => (inr (), {| state := {[ "searchValue" := VStr "" ]} ∪ state c;
                                 effects := called |})
        | Throws => (inl CallbackThrew, {| state := state c; effects := called |})
        end
    end.
Proof.
  intros fieldKey fieldValue prevented called.
  unfold handleSearch, callOnSearch, mbind, M_bind; simpl.
  destruct (onSearch p) as [f|]; [|done].
  simpl. fold fieldKey fieldValue. by destruct (f fieldKey fieldValue).
Qed.

Lemma handleSearch_TypeError_iff p c :
  (handleSearch p c).1 = inl TypeError ↔ onSearch p = None.
Proof.
  rewrite handleSearch_unfold. simpl.
  destruct (onSearch p) as [f|]; [|done].
  split; [|done]. by destruct (f _ _).
Qed.

(** A submit that throws leaves the state object as it was. *)
Lemma handleSearch_throw_keeps_state p c e :
  (handleSearch p c).1 = inl e → state (handleSearch p c).2 = state c.
Proof.
  rewrite handleSearch_unfold. simpl.
  destruct (onSearch p) as [f|]; [|done].
  by destruct (f _ _).
Qed.

Lemma onSearchCalls_app (l1 l2 : list Effect) :
  onSearchCalls (l1 ++ l2) = onSearchCalls l1 ++ onSearchCalls l2.
Proof. apply omap_app. Qed.

Lemma handleDropdownSelect_unfold p innerText c :
  handleDropdownSelect p innerText c =
    match List.find (λ col, bool_decide (name col = innerText)) (columns p) with
    | None => (inl TypeError, c)
    | Some col =>
        (inr (), {| state := {[ "isSearchDropdownOpen" := VBool false;
                                "searchKey" := VStr (key col) ]} ∪ state c;
                    effects := effects c |})
    end.
Proof. unfold handleDropdownSelect. by destruct (List.find _ _). Qed.
End handler_facts.

(** ** Submitting *)

(** C1. From a state whose selected column key is [k] and whose typed text
    is [v], and with an [onSearch] callback supplied, submitting adds
    exactly one call of the callback to the log, with first argument [k]
    followed by ["__icontains"] and second argument [v] as typed; the
    handler ends the way that very call of the callback ends. *)
Theorem handleSearch_calls_onSearch_once
    (p : Props) (f : Callback) (c : Component) (k v : string) :
  onSearch p = Some f →
  state c !! "searchKey" = Some (VStr k) →
  state c !! "searchValue" = Some (VStr v) →
  onSearchCalls (effects (handleSearch p c).2)
    = onSearchCalls (effects c) ++ [(k +:+ "__icontains", VStr v)]
  ∧ (handleSearch p c).1
    = match f (k +:+ "__icontains") (VStr v) with
      | Returns => inr ()
      | Throws => inl CallbackThrew
      end.
Proof.
  intros Hf Hk Hv. rewrite handleSearch_unfold. simpl.
  rewrite Hf, Hk, Hv. simpl.
  destruct (f _ _); simpl; by rewrite !onSearchCalls_app, app_nil_r.
Qed.

Lemma handleSearch_calls_onSearch_once_witness :
  onSearchCalls (effects (handleSearch listProps (typed "demo")).2)
    = [("name__icontains", VStr "demo")]
  ∧ (handleSearch listProps (typed "demo")).1 = inr ().
Proof.
  apply (handleSearch_calls_onSearch_once listProps accepting (typed "demo") "name" "demo");
    reflexivity.
Defined.




(** C7. With a callback supplied, whatever text [v] the state holds, the
    empty string included, submitting passes [v] to [onSearch]; the handler
    throws a [TypeError] only when [onSearch] is [null], never because of
    the text, and it completes whenever the callback returns. *)
Theorem handleSearch_does_not_validate
    (p : Props) (f : Callback) (c : Component) (v : string) :
  onSearch p = Some f →
  state c !! "searchValue" = Some (VStr v) →
  let fieldKey :=
    toString (default VUndefined (state c !! "searchKey")) +:+ "__icontains" in
  onSearchCalls (effects (handleSearch p c).2)
    = onSearchCalls (effects c) ++ [(fieldKey, VStr v)]
  ∧ (handleSearch p c).1 ≠ inl TypeError
  ∧ (f fieldKey (VStr v) = Returns → (handleSearch p c).1 = inr ()).
Proof.
  intros Hf Hv fieldKey. split_and!.
  - rewrite handleSearch_unfold. simpl. rewrite Hf, Hv. simpl. fold fieldKey.
    destruct (f _ _); simpl; by rewrite !onSearchCalls_app, app_nil_r.
  - rewrite handleSearch_TypeError_iff. congruence.
  - intros Hret. rewrite handleSearch_unfold. simpl. rewrite Hf, Hv. simpl.
    fold fieldKey. by rewrite Hret.
Qed.

Lemma handleSearch_does_not_validate_witness :
  state (constructor listProps) !! "searchValue" = Some (VStr "")
  ∧ onSearchCalls (effects (handleSearch listProps (constructor listProps)).2)
    = [("name__icontains", VStr "")]
  ∧ (handleSearch listProps (constructor listProps)).1 = inr ().
Proof.
  destruct (handleSearch_does_not_validate listProps accepting (constructor listProps) "")
    as (Hcalls & _ & Hdone); [reflexivity..|].
  split; [reflexivity|]. split; [exact Hcalls | apply Hdone; reflexivity].
Defined.

(** C4. [onSearch] is declared optional and its default is [null]; when the
    parent leaves it out, the submit handler throws a [TypeError] at the
    call, after [preventDefault] and before any state update. With any
    callback supplied that [TypeError] cannot arise. *)
Theorem handleSearch_needs_onSearch (a : Attrs) (c : Component) :
  attr_onSearch a = None →
  isRequired <$> propTypes !! "onSearch" = Some false
  ∧ onSearch (withDefaults a) = None
  ∧ handleSearch (withDefaults a) c
    = (inl TypeError, {| state := state c; effects := effects c ++ [PreventDefault] |})
  ∧ ∀ p c', (handleSearch p c').1 = inl TypeError ↔ onSearch p = None.
Proof.
  intros Ha.
  assert (onSearch (withDefaults a) = None) as Hnull.
  { unfold withDefaults. simpl. by rewrite Ha. }
  split_and!; [done|done| |apply handleSearch_TypeError_iff].
  rewrite handleSearch_unfold. cbv zeta. by rewrite Hnull.
Qed.

Lemma handleSearch_needs_onSearch_witness :
  let p := withDefaults bareAttrs in
  handleSearch p (constructor p)
  = (inl TypeError, {| state := state (constructor p); effects := [PreventDefault] |}).
Proof.
  intros p.
  destruct (handleSearch_needs_onSearch bareAttrs (constructor p)) as (_ & _ & Hthrow & _);
    [reflexivity|exact Hthrow].
Defined.

(** ** Typing and selecting *)

(** C8. [handleSearchInputChange] called with a string [s] completes, makes
    [s] itself the typed text, and changes no other property of the state
    object and nothing outside it. *)
Theorem handleSearchInputChange_tracks_text (s : string) (c : Component) :
  (handleSearchInputChange (VStr s) c).1 = inr ()
  ∧ state (handleSearchInputChange (VStr s) c).2 !! "searchValue" = Some (VStr s)
  ∧ delete "searchValue" (state (handleSearchInputChange (VStr s) c).2)
    = delete "searchValue" (state c)
  ∧ effects (handleSearchInputChange (VStr s) c).2 = effects c.
Proof.
  unfold handleSearchInputChange, setState. simpl.
  split_and!; [done|by rewrite lookup_merge_single| |done].
  apply delete_merge_single.
Qed.

(** C3. When the text of the selected item is the name of some column,
    [handleDropdownSelect] completes, the selected key becomes the key of
    the first column of that name, and the dropdown is closed; the typed
    text stays. *)
Theorem handleDropdownSelect_tracks_column
    (p : Props) (innerText : string) (c : Component) :
  (∃ col, col ∈ columns p ∧ name col = innerText) →
  ∃ col,
    FirstWith (λ x, name x = innerText) (columns p) col
    ∧ (handleDropdownSelect p innerText c).1 = inr ()
    ∧ state (handleDropdownSelect p innerText c).2 !! "searchKey"
      = Some (VStr (key col))
    ∧ state (handleDropdownSelect p innerText c).2 !! "isSearchDropdownOpen"
      = Some (VBool false)
    ∧ state (handleDropdownSelect p innerText c).2 !! "searchValue"
      = state c !! "searchValue".
Proof.
  intros Hsome.
  destruct (find_FirstWith (λ col, bool_decide (name col = innerText))
              (λ x, name x = innerText) (columns p)) as (col & Hfind & Hfirst);
    [intros x; apply bool_decide_eq_true|done|].
  exists col. rewrite handleDropdownSelect_unfold, Hfind. simpl.
  by rewrite !lookup_merge_pair.
Qed.

Lemma handleDropdownSelect_tracks_column_witness :
  let after := (handleDropdownSelect listProps "Description" (typed "demo")).2 in
  ∃ col,
    FirstWith (λ x, name x = "Description") listColumns col
    ∧ state after !! "searchKey" = Some (VStr (key col))
    ∧ state after !! "isSearchDropdownOpen" = Some (VBool false).
Proof.
  intros after.
  destruct (handleDropdownSelect_tracks_column listProps "Description" (typed "demo"))
    as (col & Hfirst & _ & Hkey & Hopen & _).
  - exists {| key := "description"; name := "Description"; isSearchable := true |}.
    split; [|reflexivity]. apply list_elem_of_further, list_elem_of_here.
  - exists col. split; [exact Hfirst|]. split; [exact Hkey | exact Hopen].
Defined.

(** ** What the key selector shows *)

(** C6. When the selected key [k] is the key of some column, [render]
    completes; with [shown] the searchable columns whose key is not [k],
    kept in the order of the [columns] prop, the key selector is a dropdown
    with one item per column of [shown], in that order, each carrying that
    column's key and showing that column's name, whenever [shown] is not
    empty, and otherwise the static label; both carry the name of the
    first column whose key is [k]. *)
Theorem render_key_selector (p : Props) (st : gmap string Val) (k : string) :
  st !! "searchKey" = Some (VStr k) →
  (∃ col, col ∈ columns p ∧ key col = k) →
  ∃ current shown view,
    FirstWith (λ col, key col = k) (columns p) current
    ∧ Keeps (λ col, isSearchable col = true ∧ key col ≠ k) (columns p) shown
    ∧ render p st = inr view
    ∧ keySelector view
      = match shown with
        | [] => NoOptionDropdown (name current)
        | _ :: _ =>
            Dropdown (default VUndefined (st !! "isSearchDropdownOpen"))
                     (name current)
                     (map (λ col, {| item_key := key col; item_text := name col |}) shown)
        end.
Proof.
  intros Hk Hsome.
  assert (∀ col, strictEq (VStr (key col)) (VStr k) = true ↔ key col = k) as Heq.
  { intros col. unfold strictEq. rewrite bool_decide_eq_true.
    split; [by intros [= ->]|by intros ->]. }
  destruct (find_FirstWith (λ col, strictEq (VStr (key col)) (VStr k))
              (λ col, key col = k) (columns p) Heq Hsome) as (current & Hfind & Hfirst).
  set (keep := λ col, isSearchable col && negb (strictEq (VStr (key col)) (VStr k))).
  exists current, (List.filter keep (columns p)).
  unfold render. rewrite Hk. simpl. rewrite Hfind. fold keep.
  eexists. split_and!; [done| |done|].
  - apply filter_Keeps. intros col. unfold keep.
    rewrite andb_true_iff, negb_true_iff, <- not_true_iff_false, Heq. done.
  - simpl. unfold toDropdownItem. by destruct (List.filter keep (columns p)).
Qed.

Lemma render_key_selector_witness :
  ∃ current shown view,
    FirstWith (λ col, key col = "description") listColumns current
    ∧ Keeps (λ col, isSearchable col = true ∧ key col ≠ "description") listColumns shown
    ∧ render listProps (state (run listProps [Select "Description"])) = inr view
    ∧ keySelector view
      = match shown with
        | [] => NoOptionDropdown (name current)
        | _ :: _ =>
            Dropdown (VBool false) (name current)
                     (map (λ col, {| item_key := key col; item_text := name col |}) shown)
        end.
Proof.
  apply (render_key_selector listProps
           (state (run listProps [Select "Description"])) "description").
  - reflexivity.
  - exists {| key := "description"; name := "Description"; isSearchable := true |}.
    split; [|reflexivity]. apply list_elem_of_further, list_elem_of_here.
Defined.

Example render_after_select :
  render listProps (state (run listProps [Select "Description"]))
  = inr {| keySelector :=
             Dropdown (VBool false) "Description"
               [ {| item_key := "name"; item_text := "Name" |} ];
           textInputValue := VStr "" |}.
Proof. reflexivity. Qed.

Example render_single_column :
  let p := withDefaults
             {| attr_columns := [ {| key := "name"; name := "Name"; isSearchable := true |} ];
                attr_onSearch := None; attr_sortedColumnKey := None |} in
  render p (state (constructor p))
  = inr {| keySelector := NoOptionDropdown "Name"; textInputValue := VStr "" |}.
Proof. reflexivity. Qed.

(** ** Invariants of the state object *)

Section invariants.
Variable p : Props.

Lemma constructor_dom : dom (state (constructor p)) = stateFields.
Proof. simpl. by rewrite !dom_insert_L, dom_singleton_L. Qed.

Lemma setState_dom (partial : gmap string Val) (c : Component) :
  dom partial ⊆ stateFields →
  dom (state c) = stateFields →
  dom (state (setState partial c).2) = stateFields.
Proof.
  intros Hsub Hdom. simpl. rewrite dom_merge_within; [done|]. by rewrite Hdom.
Qed.

Lemma step_dom (c : Component) (op : Op) :
  dom (state c) = stateFields → dom (state (step p c op)) = stateFields.
Proof.
  intros Hdom. unfold step. destruct op as [isOpen|innerText|value|]; simpl.
  - apply setState_dom; [|done].
    rewrite dom_singleton_L. by apply singleton_subseteq_l.
  - rewrite handleDropdownSelect_unfold.
    destruct (List.find _ _) as [col|]; [|done].
    apply (setState_dom _ c); [|done].
    rewrite dom_insert_L, dom_singleton_L.
    apply union_least; by apply singleton_subseteq_l.
  - apply setState_dom; [|done].
    rewrite dom_singleton_L. by apply singleton_subseteq_l.
  - rewrite handleSearch_unfold. cbv zeta.
    destruct (onSearch p) as [f|]; [|done].
    destruct (f _ _); [|done].
    apply (setState_dom _ {| state := state c; effects := _ |}); [|done].
    rewrite dom_singleton_L. by apply singleton_subseteq_l.
Qed.

Lemma step_keyReferencesColumn (c : Component) (op : Op) :
  keyReferencesColumn p (state c) → keyReferencesColumn p (state (step p c op)).
Proof.
  intros (col & Hin & Hkey). unfold step.
  destruct op as [isOpen|innerText|value|]; simpl.
  - exists col. by rewrite lookup_merge_single.
  - rewrite handleDropdownSelect_unfold.
    destruct (List.find _ _) as [col'|] eqn:Hfind; simpl; [|by exists col].
    apply find_some in Hfind as [Hin' _]. apply list_elem_of_In in Hin'.
    exists col'. by rewrite lookup_merge_pair.
  - exists col. by rewrite lookup_merge_single.
  - rewrite handleSearch_unfold. cbv zeta.
    destruct (onSearch p) as [f|]; [|by exists col].
    destruct (f _ _); simpl; [|by exists col].
    exists col. by rewrite lookup_merge_single.
Qed.

Lemma foldl_step_invariant (I : Component → Prop) (ops : list Op) :
  (∀ c op, I c → I (step p c op)) →
  ∀ c, I c → I (foldl (step p) c ops).
Proof.
  intros Hstep. induction ops as [|op ops IH]; intros c Hc; simpl; [done|].
  apply IH, Hstep, Hc.
Qed.
End invariants.

(** C2, as amended. When the [sortedColumnKey] prop, after defaulting, is
    the key of one of the supplied columns, then after construction and
    after every sequence of toggles, selections, input changes and submits
    the selected key is the key of one of the supplied columns. *)
Theorem searchKey_references_column (p : Props) (ops : list Op) :
  (∃ col, col ∈ columns p ∧ key col = sortedColumnKey p) →
  keyReferencesColumn p (state (run p ops)).
Proof.
  intros (col & Hin & Hkey). unfold run.
  apply (foldl_step_invariant p (λ c, keyReferencesColumn p (state c))).
  - apply step_keyReferencesColumn.
  - exists col. split; [done|]. simpl. rewrite Hkey. by simplify_map_eq.
Qed.

Lemma searchKey_references_column_witness :
  keyReferencesColumn listProps
    (state (run listProps [InputChange (VStr "demo"); Select "Description"; Submit;
                           Select "Owner"; Toggle (VBool true)])).
Proof.
  apply searchKey_references_column.
  exists {| key := "name"; name := "Name"; isSearchable := true |}.
  split; [apply list_elem_of_here | reflexivity].
Defined.

(** C2, as stated, fails already at construction: with the default
    [sortedColumnKey] the selected key is ["name"], whatever the columns
    are. *)
Lemma searchKey_dangling_after_construction :
  let p := withDefaults
             {| attr_columns := [ {| key := "id"; name := "ID"; isSearchable := true |} ];
                attr_onSearch := Some accepting;
                attr_sortedColumnKey := None |} in
  state (run p []) !! "searchKey" = Some (VStr "name")
  ∧ ¬ keyReferencesColumn p (state (run p [])).
Proof.
  intros p. split; [reflexivity|].
  intros (col & Hin & Hkey).
  apply list_elem_of_singleton in Hin as ->.
  vm_compute in Hkey. discriminate.
Qed.

(** In that state [render] cannot name the current column. *)
Example render_dangling_key_throws :
  let p := withDefaults
             {| attr_columns := [ {| key := "id"; name := "ID"; isSearchable := true |} ];
                attr_onSearch := Some accepting;
                attr_sortedColumnKey := None |} in
  render p (state (constructor p)) = inl TypeError.
Proof. reflexivity. Qed.

(** Selecting a text that names no column throws and changes nothing. *)
Example select_unknown_text_throws :
  handleDropdownSelect listProps "Owner" (typed "demo") = (inl TypeError, typed "demo").
Proof. reflexivity. Qed.

(** C9. The state object is built with the three properties
    [isSearchDropdownOpen], [searchKey] and [searchValue], and after every
    sequence of toggles, selections, input changes and submits it has
    exactly these three. *)
Theorem state_has_three_fields (p : Props) (ops : list Op) :
  dom (state (run p ops))
  = {[ "isSearchDropdownOpen"; "searchKey"; "searchValue" ]}
  ∧ size (state (run p ops)) = 3.
Proof.
  assert (dom (state (run p ops)) = stateFields) as Hdom.
  { unfold run.
    apply (foldl_step_invariant p (λ c, dom (state c) = stateFields)).
    - apply step_dom.
    - apply constructor_dom. }
  split; [done|].
  by rewrite <- size_dom, Hdom.
Qed.

(** * Further properties of the handlers and of [render] *)

Section more_list_facts.
Context {A : Type}.

Lemma find_None_iff (f : A → bool) (l : list A) :
  List.find f l = None ↔ ∀ x, x ∈ l → f x = false.
Proof.
  induction l as [|a l IH]; simpl.
  - split; [|done]. intros _ x Hx. by apply elem_of_nil in Hx.
  - destruct (f a) eqn:Ha.
    + split; [done|]. intros H. specialize (H a (list_elem_of_here _ _)). congruence.
    + rewrite IH. split.
      * intros H x [->|Hx]%elem_of_cons; auto.
      * intros H x Hx. apply H. by apply list_elem_of_further.
Qed.

Lemma find_elem_of (f : A → bool) (l : list A) (x : A) :
  List.find f l = Some x → x ∈ l ∧ f x = true.
Proof. intros [Hin Hf]%find_some. by rewrite list_elem_of_In. Qed.
End more_list_facts.

Section more_handler_facts.
Implicit Types (p : Props) (c : Component) (st : gmap string Val).

Lemma strictEq_key (col : Column) (k : string) :
  strictEq (VStr (key col)) (VStr k) = true ↔ key col = k.
Proof.
  unfold strictEq. rewrite bool_decide_eq_true.
  split; [by intros [= ->]|by intros ->].
Qed.

Lemma run_snoc p (ops : list Op) (op : Op) :
  run p (ops ++ [op]) = step p (run p ops) op.
Proof. unfold run. by rewrite foldl_app. Qed.

(** What one operation appends to the effect log. *)
Lemma step_effects p c (op : Op) :
  effects (step p c op)
  = effects c ++
    match op with
    | Submit =>
        PreventDefault ::
        match onSearch p with
        | None => []
        | Some _ =>
            [OnSearchCall
               (toString (default VUndefined (state c !! "searchKey")) +:+ "__icontains")
               (default VUndefined (state c !! "searchValue"))]
        end
    | _ => []
    end.
Proof.
  unfold step. destruct op as [isOpen|innerText|value|]; simpl.
  - by rewrite app_nil_r.
  - rewrite handleDropdownSelect_unfold.
    destruct (List.find _ _); simpl; by rewrite app_nil_r.
  - by rewrite app_nil_r.
  - rewrite handleSearch_unfold. cbv zeta.
    destruct (onSearch p) as [f|]; [|done].
    destruct (f _ _); simpl; by rewrite <- app_assoc.
Qed.
End more_handler_facts.

Section render_facts.
Variables (p : Props) (st : gmap string Val).

Lemma render_find_Some (col : Column) :
  List.find (λ col, strictEq (VStr (key col)) (default VUndefined (st !! "searchKey")))
    (columns p) = Some col →
  col ∈ columns p ∧ st !! "searchKey" = Some (VStr (key col)).
Proof.
  intros [Hin Heq]%find_elem_of. split; [done|].
  unfold strictEq in Heq. apply bool_decide_eq_true in Heq.
  destruct (st !! "searchKey") as [v|]; simpl in Heq; by simplify_eq.
Qed.

Lemma render_find_None :
  List.find (λ col, strictEq (VStr (key col)) (default VUndefined (st !! "searchKey")))
    (columns p) = None →
  ¬ keyReferencesColumn p st.
Proof.
  rewrite find_None_iff. intros Hnone (col & Hin & Hkey).
  specialize (Hnone col Hin). rewrite Hkey in Hnone. simpl in Hnone.
  unfold strictEq in Hnone. by rewrite bool_decide_eq_false in Hnone.
Qed.
(** A completed [render], read back: the current column and the view. *)
Lemma render_inr (view : View) :
  render p st = inr view →
  ∃ current,
    current ∈ columns p
    ∧ st !! "searchKey" = Some (VStr (key current))
    ∧ List.find (λ col, strictEq (VStr (key col)) (VStr (key current))) (columns p)
      = Some current
    ∧ textInputValue view = default VUndefined (st !! "searchValue")
    ∧ keySelector view
      = let shown :=
          List.filter
            (λ col, isSearchable col && negb (strictEq (VStr (key col)) (VStr (key current))))
            (columns p) in
        match shown with
        | [] => NoOptionDropdown (name current)
        | _ :: _ =>
            Dropdown (default VUndefined (st !! "isSearchDropdownOpen"))
                     (name current) (map toDropdownItem shown)
        end.
Proof.
  unfold render.
  destruct (List.find _ _) as [current|] eqn:Hfind; [|done].
  intros [= <-]. destruct (render_find_Some _ Hfind) as [Hin Hkey].
  rewrite Hkey in Hfind |- *. simpl in Hfind |- *.
  exists current. split_and!; [done..|].
  by destruct (List.filter _ _).
Qed.
End render_facts.

Lemma NoDup_fmap_elem_inj {A B} (f : A → B) (l : list A) (x y : A) :
  NoDup (f <$> l) → x ∈ l → y ∈ l → f x = f y → x = y.
Proof.
  induction l as [|a l IH]; simpl; [by intros _ ?%elem_of_nil|].
  rewrite NoDup_cons. intros [Hnotin Hnodup].
  intros [->|Hx]%elem_of_cons [->|Hy]%elem_of_cons Heq; [done| | |by apply IH].
  - destruct Hnotin. rewrite Heq. by apply list_elem_of_fmap_2.
  - destruct Hnotin. rewrite <- Heq. by apply list_elem_of_fmap_2.
Qed.

Lemma render_throws_unless_referenced (p : Props) (st : gmap string Val) :
  (render p st = inl TypeError → ¬ keyReferencesColumn p st)
  ∧ (¬ keyReferencesColumn p st → render p st = inl TypeError)
  ∧ (keyReferencesColumn p st → ∃ view, render p st = inr view).
Proof.
  unfold render.
  destruct (List.find _ _) as [col|] eqn:Hfind.
  - apply render_find_Some in Hfind as [Hin Hkey].
    assert (keyReferencesColumn p st) as Href by (by exists col).
    split_and!; [done|done|]. intros _. by eexists.
  - apply render_find_None in Hfind. by split_and!.
Qed.

(** Every offered item stands for a searchable column other than the
    selected one. *)
Lemma offered_item_column
    (p : Props) (st : gmap string Val) (view : View)
    (isOpen : Val) (toggleText : string) (items : list DropdownItem)
    (item : DropdownItem) :
  render p st = inr view →
  keySelector view = Dropdown isOpen toggleText items →
  item ∈ items →
  ∃ col, col ∈ columns p ∧ item = toDropdownItem col
    ∧ isSearchable col = true
    ∧ st !! "searchKey" ≠ Some (VStr (key col)).
Proof.
  intros Hview Hsel Hitem.
  apply render_inr in Hview as (current & _ & Hkey & _ & _ & Hks).
  rewrite Hks in Hsel. cbv zeta in Hsel.
  destruct (List.filter _ _) as [|col0 shown] eqn:Hshown; [done|].
  injection Hsel as _ _ <-.
  change (item ∈ map toDropdownItem (col0 :: shown)) in Hitem.
  rewrite <- Hshown in Hitem.
  apply list_elem_of_In, in_map_iff in Hitem as (col & <- & [Hcol Hkeep]%filter_In).
  apply andb_true_iff in Hkeep as [Hsearchable Hother%negb_true_iff].
  exists col. rewrite list_elem_of_In. split_and!; [done..|].
  rewrite Hkey. intros [= Heq].
  rewrite <- not_true_iff_false, strictEq_key in Hother. congruence.
Qed.

(** ** Errors *)

(** X1. [handleDropdownSelect] throws a [TypeError] exactly when no column
    carries the given text as its name, and a select that throws leaves the
    component, state and effects, as it was. *)
Theorem handleDropdownSelect_throws_iff_unknown
    (p : Props) (innerText : string) (c : Component) :
  ((handleDropdownSelect p innerText c).1 = inl TypeError
   ↔ ∀ col, col ∈ columns p → name col ≠ innerText)
  ∧ ((handleDropdownSelect p innerText c).1 = inr ()
     ∨ handleDropdownSelect p innerText c = (inl TypeError, c)).
Proof.
  rewrite handleDropdownSelect_unfold.
  destruct (List.find _ _) as [col|] eqn:Hfind; simpl.
  - split; [|by left]. split; [done|]. intros Hnone.
    apply find_elem_of in Hfind as [Hin Hname%bool_decide_eq_true].
    by destruct (Hnone col Hin).
  - split; [|by right]. split; [|done]. intros _ col Hin Hname.
    rewrite find_None_iff in Hfind. specialize (Hfind col Hin).
    by rewrite bool_decide_eq_false in Hfind.
Qed.

(** X2. [render] completes exactly when the selected key is the key of one
    of the supplied columns; otherwise it throws a [TypeError]. *)
Theorem render_throws_iff_dangling (p : Props) (st : gmap string Val) :
  (render p st = inl TypeError ↔ ¬ keyReferencesColumn p st)
  ∧ ((∃ view, render p st = inr view) ↔ keyReferencesColumn p st).
Proof.
  unfold render.
  destruct (List.find _ _) as [col|] eqn:Hfind.
  - apply render_find_Some in Hfind as [Hin Hkey].
    assert (keyReferencesColumn p st) as Href by (by exists col).
    split; split; try done.
    intros _. by eexists.
  - apply render_find_None in Hfind.
    split; split; try done.
    by intros [view ?].
Qed.

(** X3. A submit that throws has called [preventDefault] and left the state
    object as it was, typed text included; it throws a [TypeError] when
    [onSearch] is [null] and otherwise passes on what the callback threw
    after the one call. *)
Theorem handleSearch_failure_keeps_state (p : Props) (c : Component) (e : Exn) :
  (handleSearch p c).1 = inl e →
  state (handleSearch p c).2 = state c
  ∧ ((e = TypeError ∧ onSearch p = None
      ∧ effects (handleSearch p c).2 = effects c ++ [PreventDefault])
     ∨ (e = CallbackThrew
        ∧ ∃ f, onSearch p = Some f
          ∧ f (toString (default VUndefined (state c !! "searchKey")) +:+ "__icontains")
              (default VUndefined (state c !! "searchValue")) = Throws
          ∧ effects (handleSearch p c).2
            = effects c ++
              [PreventDefault;
               OnSearchCall
                 (toString (default VUndefined (state c !! "searchKey")) +:+ "__icontains")
                 (default VUndefined (state c !! "searchValue"))])).
Proof.
  rewrite handleSearch_unfold. cbv zeta.
  destruct (onSearch p) as [f|]; simpl.
  - destruct (f _ _) eqn:Hf; simpl; [done|].
    intros [= <-]. split; [done|]. right. split; [done|].
    exists f. by rewrite <- app_assoc.
  - intros [= <-]. split; [done|]. by left.
Qed.

Lemma handleSearch_failure_keeps_state_witness :
  let p := {| columns := listColumns; onSearch := Some rejecting; sortedColumnKey := "name" |} in
  state (handleSearch p (typed "demo")).2 !! "searchValue" = Some (VStr "demo").
Proof.
  intros p.
  destruct (handleSearch_failure_keeps_state p (typed "demo") CallbackThrew) as [Hstate _];
    [reflexivity|].
  rewrite Hstate. reflexivity.
Defined.

(** ** Handlers and the view *)

(** X4. [handleDropdownToggle] completes, performs no effect, and changes
    the view in one place only: a dropdown is shown with the flag it was
    given, with the same toggle text and items; the static label and the
    text input are as before. *)
Theorem handleDropdownToggle_only_moves_flag
    (p : Props) (c : Component) (isOpen : Val) (view : View) :
  render p (state c) = inr view →
  (handleDropdownToggle isOpen c).1 = inr ()
  ∧ effects (handleDropdownToggle isOpen c).2 = effects c
  ∧ render p (state (handleDropdownToggle isOpen c).2)
    = inr {| keySelector :=
               match keySelector view with
               | Dropdown _ toggleText items => Dropdown isOpen toggleText items
               | NoOptionDropdown text => NoOptionDropdown text
               end;
             textInputValue := textInputValue view |}.
Proof.
  intros Hview. split_and!; [done..|].
  unfold handleDropdownToggle, setState. simpl.
  revert Hview. unfold render. rewrite !lookup_merge_single. simpl.
  destruct (List.find _ _) as [current|]; [|done].
  intros [= <-]. simpl. by destruct (0 <? _)%nat.
Qed.

Lemma handleDropdownToggle_only_moves_flag_witness :
  render listProps (state (handleDropdownToggle (VBool true) (typed "demo")).2)
  = inr {| keySelector :=
             Dropdown (VBool true) "Name"
               [ {| item_key := "description"; item_text := "Description" |} ];
           textInputValue := VStr "demo" |}.
Proof.
  destruct (handleDropdownToggle_only_moves_flag listProps (typed "demo") (VBool true)
              {| keySelector :=
                   Dropdown (VBool false) "Name"
                     [ {| item_key := "description"; item_text := "Description" |} ];
                 textInputValue := VStr "demo" |}) as (_ & _ & Hview);
    [reflexivity|exact Hview].
Defined.

(** X5. [handleSearchInputChange] changes the view in one place only: the
    text input shows the value it was given, and the key selector is as
    before. *)
Theorem handleSearchInputChange_only_moves_text
    (p : Props) (c : Component) (value : Val) (view : View) :
  render p (state c) = inr view →
  render p (state (handleSearchInputChange value c).2)
  = inr {| keySelector := keySelector view; textInputValue := value |}.
Proof.
  unfold handleSearchInputChange, setState. simpl.
  unfold render. rewrite !lookup_merge_single. simpl.
  destruct (List.find _ _) as [current|]; [|done].
  by intros [= <-].
Qed.

Lemma handleSearchInputChange_only_moves_text_witness :
  render listProps (state (handleSearchInputChange (VStr "job") (typed "demo")).2)
  = inr {| keySelector :=
             Dropdown (VBool false) "Name"
               [ {| item_key := "description"; item_text := "Description" |} ];
           textInputValue := VStr "job" |}.
Proof.
  apply (handleSearchInputChange_only_moves_text listProps (typed "demo") (VStr "job")
           {| keySelector :=
                Dropdown (VBool false) "Name"
                  [ {| item_key := "description"; item_text := "Description" |} ];
              textInputValue := VStr "demo" |}).
  reflexivity.
Defined.

(** X6. Every item that [render] offers in the dropdown can be selected:
    [handleDropdownSelect] called with its text completes, and the key it
    selects is that of a column carrying that name. *)
Theorem offered_item_can_be_selected
    (p : Props) (st : gmap string Val) (c : Component) (view : View)
    (isOpen : Val) (toggleText : string) (items : list DropdownItem)
    (item : DropdownItem) :
  render p st = inr view →
  keySelector view = Dropdown isOpen toggleText items →
  item ∈ items →
  (handleDropdownSelect p (item_text item) c).1 = inr ()
  ∧ ∃ col, col ∈ columns p ∧ name col = item_text item
      ∧ state (handleDropdownSelect p (item_text item) c).2 !! "searchKey"
        = Some (VStr (key col)).
Proof.
  intros Hview Hsel Hitem.
  destruct (offered_item_column p st view isOpen toggleText items item)
    as (col & Hcol & -> & _); [done..|].
  rewrite handleDropdownSelect_unfold. simpl.
  destruct (List.find _ _) as [col'|] eqn:Hfind.
  - apply find_elem_of in Hfind as [Hin' Hname%bool_decide_eq_true].
    split; [done|]. exists col'. split_and!; [done..|].
    simpl. by rewrite lookup_merge_pair.
  - rewrite find_None_iff in Hfind. specialize (Hfind col Hcol).
    by rewrite bool_decide_eq_false in Hfind.
Qed.

Lemma offered_item_can_be_selected_witness :
  let item := {| item_key := "description"; item_text := "Description" |} in
  (handleDropdownSelect listProps (item_text item) (typed "demo")).1 = inr ().
Proof.
  intros item.
  destruct (offered_item_can_be_selected listProps (state (typed "demo")) (typed "demo")
              {| keySelector := Dropdown (VBool false) "Name" [item];
                 textInputValue := VStr "demo" |}
              (VBool false) "Name" [item] item) as [Hdone _].
  - reflexivity.
  - reflexivity.
  - apply list_elem_of_here.
  - exact Hdone.
Defined.

(** X7. When no two columns share a name, selecting an offered item selects
    the column the item stands for: the selected key becomes the item's own
    key, which is the key of a searchable column. *)
Theorem offered_item_selects_its_column
    (p : Props) (st : gmap string Val) (c : Component) (view : View)
    (isOpen : Val) (toggleText : string) (items : list DropdownItem)
    (item : DropdownItem) :
  NoDup (name <$> columns p) →
  render p st = inr view →
  keySelector view = Dropdown isOpen toggleText items →
  item ∈ items →
  state (handleDropdownSelect p (item_text item) c).2 !! "searchKey"
    = Some (VStr (item_key item))
  ∧ ∃ col, col ∈ columns p ∧ key col = item_key item ∧ isSearchable col = true.
Proof.
  intros Hnames Hview Hsel Hitem.
  destruct (offered_item_column p st view isOpen toggleText items item)
    as (col & Hcol & -> & Hsearchable & _); [done..|].
  split; [|by exists col].
  rewrite handleDropdownSelect_unfold. simpl.
  destruct (List.find _ _) as [col'|] eqn:Hfind.
  - apply find_elem_of in Hfind as [Hin' Hname%bool_decide_eq_true].
    rewrite (NoDup_fmap_elem_inj name (columns p) col' col) by done.
    simpl. by rewrite lookup_merge_pair.
  - rewrite find_None_iff in Hfind. specialize (Hfind col Hcol).
    by rewrite bool_decide_eq_false in Hfind.
Qed.

Lemma offered_item_selects_its_column_witness :
  let item := {| item_key := "description"; item_text := "Description" |} in
  state (handleDropdownSelect listProps (item_text item) (typed "demo")).2 !! "searchKey"
  = Some (VStr "description").
Proof.
  intros item.
  destruct (offered_item_selects_its_column listProps (state (typed "demo")) (typed "demo")
              {| keySelector := Dropdown (VBool false) "Name" [item];
                 textInputValue := VStr "demo" |}
              (VBool false) "Name" [item] item) as [Hkey _].
  - apply (bool_decide_unpack _). exact I.
  - reflexivity.
  - reflexivity.
  - apply list_elem_of_here.
  - exact Hkey.
Defined.

(** X8. When no two columns share a key, a select of a text that names a
    column is followed by a [render] that completes and shows that text in
    the key selector, closed, without an item for the selected key, and
    with the text input as it was. *)
Theorem render_after_select_shows_selection
    (p : Props) (innerText : string) (c : Component) :
  NoDup (key <$> columns p) →
  (∃ col, col ∈ columns p ∧ name col = innerText) →
  ∃ view,
    render p (state (handleDropdownSelect p innerText c).2) = inr view
    ∧ textInputValue view = default VUndefined (state c !! "searchValue")
    ∧ match keySelector view with
      | Dropdown isOpen toggleText items =>
          isOpen = VBool false ∧ toggleText = innerText
          ∧ state (handleDropdownSelect p innerText c).2 !! "searchKey"
            ∉ (λ item, Some (VStr (item_key item))) <$> items
      | NoOptionDropdown text => text = innerText
      end.
Proof.
  intros Hkeys (col0 & Hin0 & Hname0).
  rewrite handleDropdownSelect_unfold.
  destruct (List.find _ _) as [col|] eqn:Hfind.
  2:{ rewrite find_None_iff in Hfind. specialize (Hfind col0 Hin0).
      by rewrite bool_decide_eq_false in Hfind. }
  apply find_elem_of in Hfind as [Hin Hname%bool_decide_eq_true]. simpl.
  set (st := {[ "isSearchDropdownOpen" := VBool false; "searchKey" := VStr (key col) ]}
             ∪ state c).
  assert (st !! "searchKey" = Some (VStr (key col))) as Hkey
    by (unfold st; by rewrite lookup_merge_pair).
  destruct (proj2 (proj2 (render_throws_unless_referenced p st)) (ex_intro _ col (conj Hin Hkey)))
    as [view Hview].
  exists view. split; [done|].
  destruct (render_inr p st view Hview) as (current & Hcur & Hkey' & _ & Htext & Hks).
  assert (current = col) as ->.
  { apply (NoDup_fmap_elem_inj key (columns p)); [done..|]. congruence. }
  split; [rewrite Htext; unfold st; by rewrite lookup_merge_pair|].
  destruct (keySelector view) as [isOpen toggleText items|text] eqn:Hsel.
  - cbv zeta in Hks. destruct (List.filter _ _) as [|c1 shown]; [done|].
    injection Hks as -> -> _.
    split_and!; [unfold st; by rewrite lookup_merge_pair|done|].
    rewrite Hkey. intros (item & Heq & Hitem)%list_elem_of_fmap.
    destruct (offered_item_column p st view _ _ _ item Hview Hsel Hitem)
      as (col' & _ & -> & _ & Hother).
    apply Hother. by rewrite Hkey, Heq.
  - cbv zeta in Hks. destruct (List.filter _ _); [|done]. by injection Hks as ->.
Qed.

Lemma render_after_select_shows_selection_witness :
  ∃ view,
    render listProps (state (handleDropdownSelect listProps "Description" (typed "demo")).2)
    = inr view
    ∧ textInputValue view = VStr "demo"
    ∧ match keySelector view with
      | Dropdown isOpen toggleText items =>
          isOpen = VBool false ∧ toggleText = "Description"
          ∧ Some (VStr "description") ∉ (λ item, Some (VStr (item_key item))) <$> items
      | NoOptionDropdown text => text = "Description"
      end.
Proof.
  apply (render_after_select_shows_selection listProps "Description" (typed "demo")).
  - apply (bool_decide_unpack _). exact I.
  - exists {| key := "description"; name := "Description"; isSearchable := true |}.
    split; [|reflexivity]. apply list_elem_of_further, list_elem_of_here.
Defined.

(** ** Handlers in sequence *)

(** X9. What the text input reports is what the next submit passes on: after
    [handleSearchInputChange] with a value, a submit with a callback
    supplied adds one call whose second argument is that value and whose
    first argument is built from the key selected before. *)
Theorem typed_value_reaches_onSearch
    (p : Props) (f : Callback) (c : Component) (value : Val) :
  onSearch p = Some f →
  onSearchCalls (effects (handleSearch p (handleSearchInputChange value c).2).2)
  = onSearchCalls (effects c)
    ++ [(toString (default VUndefined (state c !! "searchKey")) +:+ "__icontains", value)].
Proof.
  intros Hf. rewrite handleSearch_unfold. cbv zeta. rewrite Hf.
  unfold handleSearchInputChange, setState. simpl.
  rewrite !lookup_merge_single. simpl.
  destruct (f _ _); simpl; by rewrite !onSearchCalls_app, app_nil_r.
Qed.

Lemma typed_value_reaches_onSearch_witness :
  onSearchCalls
    (effects (handleSearch listProps
                (handleSearchInputChange (VStr "job") (constructor listProps)).2).2)
  = [("name__icontains", VStr "job")].
Proof.
  apply (typed_value_reaches_onSearch listProps accepting (constructor listProps) (VStr "job")).
  reflexivity.
Defined.

(** X10. The column selected is the column searched: after a select of a
    text that names a column, a submit with a callback supplied adds one
    call whose first argument is the key of the first column of that name
    followed by ["__icontains"], and whose second argument is the text
    typed before the select. *)
Theorem selected_key_reaches_onSearch
    (p : Props) (f : Callback) (c : Component) (innerText : string) :
  onSearch p = Some f →
  (∃ col, col ∈ columns p ∧ name col = innerText) →
  ∃ col,
    FirstWith (λ x, name x = innerText) (columns p) col
    ∧ onSearchCalls (effects (handleSearch p (handleDropdownSelect p innerText c).2).2)
      = onSearchCalls (effects c)
        ++ [(key col +:+ "__icontains", default VUndefined (state c !! "searchValue"))].
Proof.
  intros Hf Hsome.
  destruct (find_FirstWith (λ col, bool_decide (name col = innerText))
              (λ x, name x = innerText) (columns p)) as (col & Hfind & Hfirst);
    [intros x; apply bool_decide_eq_true|done|].
  exists col. split; [done|].
  rewrite handleSearch_unfold. cbv zeta. rewrite Hf.
  rewrite handleDropdownSelect_unfold, Hfind. simpl.
  rewrite !lookup_merge_pair. simpl.
  destruct (f _ _); simpl; by rewrite !onSearchCalls_app, app_nil_r.
Qed.

Lemma selected_key_reaches_onSearch_witness :
  ∃ col,
    FirstWith (λ x, name x = "Description") listColumns col
    ∧ onSearchCalls
        (effects (handleSearch listProps
                    (handleDropdownSelect listProps "Description" (typed "demo")).2).2)
      = [(key col +:+ "__icontains", VStr "demo")].
Proof.
  apply (selected_key_reaches_onSearch listProps accepting (typed "demo") "Description").
  - reflexivity.
  - exists {| key := "description"; name := "Description"; isSearchable := true |}.
    split; [|reflexivity]. apply list_elem_of_further, list_elem_of_here.
Defined.

(** X11. A submit clears what it sent: when the callback returns, a second
    submit straight after the first calls [onSearch] again, with the same
    first argument and the empty string. *)
Theorem second_submit_sends_empty_text
    (p : Props) (f : Callback) (c : Component) :
  onSearch p = Some f →
  f (toString (default VUndefined (state c !! "searchKey")) +:+ "__icontains")
    (default VUndefined (state c !! "searchValue")) = Returns →
  onSearchCalls (effects (handleSearch p (handleSearch p c).2).2)
  = onSearchCalls (effects c)
    ++ [(toString (default VUndefined (state c !! "searchKey")) +:+ "__icontains",
         default VUndefined (state c !! "searchValue"));
        (toString (default VUndefined (state c !! "searchKey")) +:+ "__icontains",
         VStr "")].
Proof.
  intros Hf Hret.
  rewrite (handleSearch_unfold p (handleSearch p c).2). cbv zeta. rewrite Hf.
  rewrite (handleSearch_unfold p c). cbv zeta. rewrite Hf, Hret. simpl.
  rewrite !lookup_merge_single. simpl.
  destruct (f _ (VStr "")); simpl; by rewrite !onSearchCalls_app, !app_nil_r, <- app_assoc.
Qed.

Lemma second_submit_sends_empty_text_witness :
  onSearchCalls (effects (handleSearch listProps (handleSearch listProps (typed "demo")).2).2)
  = [("name__icontains", VStr "demo"); ("name__icontains", VStr "")].
Proof.
  apply (second_submit_sends_empty_text listProps accepting (typed "demo")); reflexivity.
Defined.

(** ** Whole sequences of operations *)

Section sequence_facts.
Variable p : Props.

Lemma countSubmits_snoc (ops : list Op) (op : Op) :
  countSubmits (ops ++ [op]) = countSubmits ops + (if isSubmit op then 1 else 0).
Proof.
  unfold countSubmits. rewrite List.filter_app, length_app. simpl.
  by destruct (isSubmit op).
Qed.

Lemma preventDefaults_app (l1 l2 : list Effect) :
  preventDefaults (l1 ++ l2) = preventDefaults l1 + preventDefaults l2.
Proof. unfold preventDefaults. by rewrite List.filter_app, length_app. Qed.

(** The selected key after a step is a string, known if it was before. *)
Lemma step_knownKey (c : Component) (op : Op) :
  (∃ k, state c !! "searchKey" = Some (VStr k) ∧ knownKey p k) →
  ∃ k, state (step p c op) !! "searchKey" = Some (VStr k) ∧ knownKey p k.
Proof.
  intros (k & Hk & Hknown). unfold step.
  destruct op as [isOpen|innerText|value|]; simpl.
  - exists k. by rewrite lookup_merge_single.
  - rewrite handleDropdownSelect_unfold.
    destruct (List.find _ _) as [col|] eqn:Hfind; simpl; [|by exists k].
    apply find_elem_of in Hfind as [Hin _].
    exists (key col). rewrite lookup_merge_pair. split; [done|]. left. by exists col.
  - exists k. by rewrite lookup_merge_single.
  - rewrite handleSearch_unfold. cbv zeta.
    destruct (onSearch p) as [f|]; [|by exists k].
    destruct (f _ _); simpl; [|by exists k].
    exists k. by rewrite lookup_merge_single.
Qed.
End sequence_facts.

(** X12. Over any sequence of operations from construction, [preventDefault]
    is called once per submit; [onSearch] is called once per submit when a
    callback was supplied, whether or not its calls return, and there is no
    call otherwise. Toggles, selects and input changes call neither. *)
Theorem one_call_per_submit (p : Props) (ops : list Op) :
  preventDefaults (effects (run p ops)) = countSubmits ops
  ∧ length (onSearchCalls (effects (run p ops)))
    = match onSearch p with
      | Some _ => countSubmits ops
      | None => 0
      end.
Proof.
  induction ops as [|op ops [IHprevent IHcalls]] using rev_ind.
  - by destruct (onSearch p).
  - rewrite run_snoc, step_effects, countSubmits_snoc.
    rewrite preventDefaults_app, onSearchCalls_app, length_app, IHprevent, IHcalls.
    destruct op; simpl; destruct (onSearch p); simpl; split; by try lia.
Qed.

(** X13. Every first argument that [onSearch] receives, over any sequence
    of operations from construction, is a key followed by ["__icontains"],
    where the key is that of one of the supplied columns or the
    [sortedColumnKey] prop. *)
Theorem onSearch_keys_are_known
    (p : Props) (ops : list Op) (fieldKey : string) (fieldValue : Val) :
  (fieldKey, fieldValue) ∈ onSearchCalls (effects (run p ops)) →
  ∃ k, knownKey p k ∧ fieldKey = k +:+ "__icontains".
Proof.
  revert fieldKey fieldValue.
  cut ((∃ k, state (run p ops) !! "searchKey" = Some (VStr k) ∧ knownKey p k)
       ∧ ∀ fieldKey fieldValue,
           (fieldKey, fieldValue) ∈ onSearchCalls (effects (run p ops)) →
           ∃ k, knownKey p k ∧ fieldKey = k +:+ "__icontains"); [by intros [_ ?]|].
  induction ops as [|op ops [IHkey IHcalls]] using rev_ind.
  - split.
    + exists (sortedColumnKey p). split; [done|by right].
    + by intros ?? ?%elem_of_nil.
  - rewrite run_snoc. split; [by apply step_knownKey|].
    intros fieldKey fieldValue. rewrite step_effects, onSearchCalls_app.
    intros [Hold|Hnew]%elem_of_app; [by eapply IHcalls|].
    destruct IHkey as (k & Hk & Hknown).
    destruct op; simpl in Hnew; try by apply elem_of_nil in Hnew.
    destruct (onSearch p); simpl in Hnew; [|by apply elem_of_nil in Hnew].
    apply list_elem_of_singleton in Hnew as [= -> _].
    exists k. by rewrite Hk.
Qed.

Lemma onSearch_keys_are_known_witness :
  ∃ k, knownKey listProps k ∧ "description__icontains" = k +:+ "__icontains".
Proof.
  apply (onSearch_keys_are_known listProps
           [InputChange (VStr "demo"); Select "Description"; Submit; Toggle (VBool true)]
           "description__icontains" (VStr "demo")).
  apply list_elem_of_here.
Defined.

(** X14. As long as toggles carry booleans and input changes carry strings,
    which is what the toolkit passes, the state after any sequence of
    operations from construction holds a boolean flag and a string text,
    and every second argument [onSearch] has received is a string. *)
Theorem toolkit_events_keep_state_typed (p : Props) (ops : list Op) :
  Forall toolkitEvent ops →
  (∃ (isOpen : bool) (v : string),
     state (run p ops) !! "isSearchDropdownOpen" = Some (VBool isOpen)
     ∧ state (run p ops) !! "searchValue" = Some (VStr v))
  ∧ Forall (λ call, ∃ v : string, call.2 = VStr v) (onSearchCalls (effects (run p ops))).
Proof.
  induction ops as [|op ops IH] using rev_ind; intros Hops.
  - split; [|by apply Forall_nil]. by exists false, "".
  - apply Forall_app in Hops as [Hops [Hop _]%Forall_cons].
    destruct (IH Hops) as [(isOpen & v & Ho & Hv) Hcalls].
    rewrite run_snoc. split.
    + unfold step. destruct op as [[| b |]|innerText|[| |s]|]; simpl; try done.
      * exists b, v. by rewrite !lookup_merge_single.
      * rewrite handleDropdownSelect_unfold.
        destruct (List.find _ _) as [col|]; simpl; [|by exists isOpen, v].
        exists false, v. by rewrite !lookup_merge_pair.
      * exists isOpen, s. by rewrite !lookup_merge_single.
      * rewrite handleSearch_unfold. cbv zeta.
        destruct (onSearch p) as [f|]; [|by exists isOpen, v].
        destruct (f _ _); simpl; [|by exists isOpen, v].
        exists isOpen, "". by rewrite !lookup_merge_single.
    + rewrite step_effects, onSearchCalls_app. apply Forall_app. split; [done|].
      destruct op; simpl; try by apply Forall_nil.
      destruct (onSearch p); simpl; [|by apply Forall_nil].
      apply Forall_singleton. exists v. by rewrite Hv.
Qed.

Lemma toolkit_events_keep_state_typed_witness :
  let ops := [Toggle (VBool true); InputChange (VStr "demo"); Select "Description"; Submit] in
  Forall (λ call, ∃ v : string, call.2 = VStr v) (onSearchCalls (effects (run listProps ops))).
Proof.
  intros ops.
  destruct (toolkit_events_keep_state_typed listProps ops) as [_ Hcalls]; [|exact Hcalls].
  repeat (apply Forall_cons; split; [exact I|]). apply Forall_nil. exact I.
Defined.

(** Without that, the flag and the text are whatever was passed. *)
Example untyped_events_reach_state :
  let c := run listProps [Toggle VUndefined; InputChange (VBool true); Submit] in
  state (step listProps (constructor listProps) (Toggle VUndefined)) !! "isSearchDropdownOpen"
  = Some VUndefined
  ∧ onSearchCalls (effects c) = [("name__icontains", VBool true)].
Proof. split; reflexivity. Qed.

(** X15. When the [sortedColumnKey] prop is the key of one of the supplied
    columns, [render] completes in the state reached by any sequence of
    operations from construction, whichever of them threw. *)
Theorem render_completes_when_reachable (p : Props) (ops : list Op) :
  (∃ col, col ∈ columns p ∧ key col = sortedColumnKey p) →
  ∃ view, render p (state (run p ops)) = inr view.
Proof.
  intros (col & Hin & Hkey).
  apply render_throws_unless_referenced. unfold run.
  apply (foldl_step_invariant p (λ c, keyReferencesColumn p (state c))).
  - apply step_keyReferencesColumn.
  - exists col. split; [done|]. simpl. rewrite Hkey. by simplify_map_eq.
Qed.

Lemma render_completes_when_reachable_witness :
  ∃ view,
    render listProps
      (state (run listProps [Select "Owner"; InputChange VUndefined; Submit;
                             Select "Description"; Toggle (VBool true)]))
    = inr view.
Proof.
  apply render_completes_when_reachable.
  exists {| key := "name"; name := "Name"; isSearchable := true |}.
  split; [apply list_elem_of_here | reflexivity].
Defined.

(** X16. With an empty [columns] prop nothing can be shown or selected:
    [render] throws a [TypeError] in every state, and every select throws
    one and leaves the component as it was. *)
Theorem empty_columns_always_throw
    (p : Props) (c : Component) (innerText : string) :
  columns p = [] →
  render p (state c) = inl TypeError
  ∧ handleDropdownSelect p innerText c = (inl TypeError, c).
Proof.
  intros Hempty. split.
  - apply render_throws_unless_referenced.
    intros (col & Hin & _). rewrite Hempty in Hin. by apply elem_of_nil in Hin.
  - rewrite handleDropdownSelect_unfold. by rewrite Hempty.
Qed.

Lemma empty_columns_always_throw_witness :
  let p := withDefaults {| attr_columns := []; attr_onSearch := Some accepting;
                           attr_sortedColumnKey := None |} in
  render p (state (constructor p)) = inl TypeError
  ∧ handleDropdownSelect p "Name" (constructor p) = (inl TypeError, constructor p).
Proof.
  intros p. apply (empty_columns_always_throw p (constructor p) "Name"). reflexivity.
Defined.
